(** * DataCite REST client wrapper: a shallow embedding of [datacite/rest_client.py]

    The module under study is a thin request/response mapper.  Each method
    of [DataCiteRESTClient] builds one request, hands it to a
    [DataCiteRequest] object, looks at the status code and either returns a
    value or raises.  The embedding keeps that shape: Python values and
    exceptions are inductive types, a method is a computation in a small
    state-and-exception monad whose state holds the client object and the
    remote world, and every exchange with the transport is recorded so that
    "no request was sent" is a statement about the recorded exchanges. *)

From Stdlib Require Import List String Ascii ZArith NArith Bool Lia.
Import ListNotations.

Set Implicit Arguments.

(** ** Python strings

    A Python [str] is a sequence of Unicode code points.  [splitlines]
    breaks lines at code points beyond the 8-bit range (U+2028, U+2029),
    so a character is a code point, not a byte. *)

Definition char := N.
Definition str := list char.

Definition lit (s : string) : str := map N_of_ascii (list_ascii_of_string s).

Definition LF : char := 10%N.
Definition CR : char := 13%N.
Definition SLASH : char := 47%N.
Definition EQUALS : char := 61%N.

Definition char_eqb (a b : char) : bool := N.eqb a b.

Fixpoint str_eqb (a b : str) : bool :=
  match a, b with
  | [], [] => true
  | x :: a', y :: b' => char_eqb x y && str_eqb a' b'
  | _, _ => false
  end.

(** [c in s] for a one-character needle. *)
Definition contains (c : char) (s : str) : bool := existsb (char_eqb c) s.

(** [s[-1]]: the last character, [None] standing for the [IndexError] of an
    empty string. *)
Fixpoint last_char (s : str) : option char :=
  match s with
  | [] => None
  | [c] => Some c
  | _ :: r => last_char r
  end.

(** [sep.join(parts)]. *)
Fixpoint str_join (sep : str) (parts : list str) : str :=
  match parts with
  | [] => []
  | [p] => p
  | p :: ps => p ++ sep ++ str_join sep ps
  end.

Definition push_front (c : char) (parts : list str) : list str :=
  match parts with
  | [] => [[c]]
  | p :: ps => (c :: p) :: ps
  end.

(** [s.split(sep, maxsplit)] for a one-character separator, which is what
    both call sites pass.  [None] is the unbounded default. *)
Fixpoint str_split (sep : char) (maxsplit : option nat) (s : str) : list str :=
  match s with
  | [] => [[]]
  | c :: r =>
      if char_eqb c sep then
        match maxsplit with
        | Some O => push_front c (str_split sep maxsplit r)
        | Some (S n) => [] :: str_split sep (Some n) r
        | None => [] :: str_split sep None r
        end
      else push_front c (str_split sep maxsplit r)
  end.

(** The line boundaries of [str.splitlines]. *)
Definition is_linebreak (c : char) : bool :=
  existsb (char_eqb c)
    [10; 11; 12; 13; 28; 29; 30; 133; 8232; 8233]%N.

(** [s.splitlines()]: [line] holds the characters of the line being read,
    most recent first.  A boundary closes the line, CR LF counts as one
    boundary, and a final line is produced only when it is not empty. *)
Fixpoint splitlines_from (line : str) (s : str) : list str :=
  match s with
  | [] => match line with [] => [] | _ => [rev line] end
  | c :: rest =>
      if is_linebreak c then
        rev line ::
          match rest with
          | c' :: rest' =>
              if char_eqb c CR && char_eqb c' LF
              then splitlines_from [] rest'
              else splitlines_from [] rest
          | [] => splitlines_from [] rest
          end
      else splitlines_from (c :: line) rest
  end.

Definition splitlines (s : str) : list str := splitlines_from [] s.

(** ** Python values and exceptions *)

(** The values a decoded response body or a configuration field can hold.
    A dict is kept as its items in insertion order, with distinct keys. *)
#[warnings="-register-all"]
Inductive pyval : Type :=
| PyNone
| PyBool (b : bool)
| PyInt (z : Z)
| PyStr (s : str)
| PyList (l : list pyval)
| PyDict (items : list (str * pyval))
| PyOpaque (name : str).

(** Modelled from the spec: [DataCiteError.factory] of [errors.py], which is
    not part of this module.  From a status code and a response body it
    makes one classified error that carries both; which subclass a status
    selects is decided there. *)
Record ClassifiedError : Type := factory {
  status_code : Z;
  raw_body : pyval
}.

Inductive exn : Type :=
| NameError (name : str)
| UnboundLocalError (name : str)
| TypeError
| ValueError
| IndexError
| KeyError (key : str)
| AttributeError (attr : str)
| DataCiteError (e : ClassifiedError).

(** [UnboundLocalError] is a subclass of [NameError]. *)
Definition is_NameError (e : exn) : bool :=
  match e with
  | NameError _ | UnboundLocalError _ => true
  | _ => false
  end.

Inductive Result (A : Type) : Type :=
| Return (a : A)
| Raise (e : exn).

Arguments Return {A} a.
Arguments Raise {A} e.

Definition rbind {A B} (r : Result A) (k : A -> Result B) : Result B :=
  match r with
  | Return a => k a
  | Raise e => Raise e
  end.

(** *** Dicts *)

Fixpoint dict_get {V} (k : str) (d : list (str * V)) : option V :=
  match d with
  | [] => None
  | (k', v) :: r => if str_eqb k k' then Some v else dict_get k r
  end.

(** [d[k] = v]: an existing key keeps its place, a new one goes last. *)
Fixpoint dict_set {V} (k : str) (v : V) (d : list (str * V)) : list (str * V) :=
  match d with
  | [] => [(k, v)]
  | (k', v') :: r =>
      if str_eqb k k' then (k', v) :: r else (k', v') :: dict_set k v r
  end.

Definition keys {V} (d : list (str * V)) : list str := map fst d.

(** [v[k]] with a string key. *)
Definition subscript (v : pyval) (k : str) : Result pyval :=
  match v with
  | PyDict items =>
      match dict_get k items with
      | Some x => Return x
      | None => Raise (KeyError k)
      end
  | _ => Raise TypeError
  end.

(** [a + b] where [b] is a string: [None + str] is a [TypeError]. *)
Definition str_add (a : option str) (b : str) : Result str :=
  match a with
  | Some s => Return (s ++ b)
  | None => Raise TypeError
  end.

Definition of_option (x : option str) : pyval :=
  match x with
  | Some s => PyStr s
  | None => PyNone
  end.

(** [a, b = parts]. *)
Definition unpack2 (parts : list str) : Result (str * str) :=
  match parts with
  | [a; b] => Return (a, b)
  | _ => Raise ValueError
  end.

(** Truth value of an optional string: [None] and [''] are false. *)
Definition truthy (x : option str) : bool :=
  match x with
  | Some (_ :: _) => true
  | _ => false
  end.

(** ** The module namespace

    The names bound at module level in [rest_client.py]: the two [__future__]
    features, the two imports and the class.  A name that is neither local
    to a function nor listed here (nor a builtin) raises [NameError] when
    it is read. *)
Definition module_globals : list (str * pyval) :=
  [ (lit "absolute_import", PyOpaque (lit "absolute_import"));
    (lit "print_function", PyOpaque (lit "print_function"));
    (lit "DataCiteError", PyOpaque (lit "DataCiteError"));
    (lit "DataCiteRequest", PyOpaque (lit "DataCiteRequest"));
    (lit "DataCiteRESTClient", PyOpaque (lit "DataCiteRESTClient")) ].

Definition load_global (name : str) : Result pyval :=
  match dict_get name module_globals with
  | Some v => Return v
  | None => Raise (NameError name)
  end.

(** A local variable of a function is unbound until it is assigned. *)
Definition load_local {A} (name : str) (slot : option A) : Result A :=
  match slot with
  | Some v => Return v
  | None => Raise (UnboundLocalError name)
  end.

(** ** Client object, requests and responses *)

Record DataCiteRESTClient : Type := {
  username : option str;
  password : option str;
  prefix : option str;
  api_ver : str;
  api_url : str;
  timeout : pyval
}.

(** The object built by [_request_factory]. *)
Record DataCiteRequest : Type := {
  base_url : str;
  req_username : option str;
  req_password : option str;
  default_params : list (str * str);
  req_timeout : pyval
}.

Inductive Method : Type := GET | POST | DELETE.

(** One call of [r.get], [r.post] or [r.delete]; an argument that the call
    does not pass is [None]. *)
Record Request : Type := {
  via : DataCiteRequest;
  method : Method;
  url : str;
  body : option str;
  headers : option (list (str * str))
}.

(** What the request object holds after the call: [r.code] and [r.data]. *)
Record Response : Type := {
  code : Z;
  data : pyval
}.

Definition Exchange : Type := Request * Response.

(** ** Construction *)

(** [__init__].  The only step that could raise is [self.api_url[-1]]. *)
Definition __init__ (username password url prefix : option str)
    (test_mode : bool) (api_ver : str) (timeout : pyval)
    : Result DataCiteRESTClient :=
  let api_url :=
    if test_mode then lit "https://api.test.datacite.org/"
    else if truthy url
         then match url with Some u => u | None => [] end
         else lit "https://api.datacite.org/" in
  rbind (match last_char api_url with
         | Some c => Return c
         | None => Raise IndexError
         end) (fun c =>
  let api_url :=
    if negb (char_eqb c SLASH) then api_url ++ lit "/" else api_url in
  Return {| username := username; password := password; prefix := prefix;
            api_ver := api_ver; api_url := api_url; timeout := timeout |}).

(** ['{0}'.format(x)] for a value that is a string or [None]. *)
Definition format_0 (x : option str) : str :=
  match x with
  | Some s => s
  | None => lit "None"
  end.

(** [__repr__]. *)
Definition __repr__ (c : DataCiteRESTClient) : str :=
  lit "<DataCiteMDSClient: " ++ format_0 (username c) ++ lit ">".

(** ** Formatting and the media wire format *)

Definition CRLF : str := [CR; LF].

(** ["%s=%s" % (k, v)] for two strings. *)
Definition media_line (kv : str * str) : str :=
  fst kv ++ lit "=" ++ snd kv.

(** The request body of [media_post]. *)
Definition media_body (media : list (str * str)) : str :=
  str_join CRLF (map media_line media).

(** The [for] loop of [media_get]: every line is split at its first ['='],
    unpacked into two names and stored. *)
Fixpoint media_loop (lines : list str) (values : list (str * str))
    : Result (list (str * str)) :=
  match lines with
  | [] => Return values
  | line :: rest =>
      rbind (unpack2 (str_split EQUALS (Some 1%nat) line)) (fun p =>
      let (mimetype, url) := p in
      media_loop rest (dict_set mimetype url values))
  end.

(** [data.splitlines()] on a response body. *)
Definition call_splitlines (v : pyval) : Result (list str) :=
  match v with
  | PyStr s => Return (splitlines s)
  | _ => Raise (AttributeError (lit "splitlines"))
  end.

(** The success branch of [media_get] on the body it received. *)
Definition media_values (data : pyval) : Result (list (str * str)) :=
  rbind (call_splitlines data) (fun lines => media_loop lines []).

(** [split[0] != self.prefix]. *)
Definition differs (s : str) (p : option str) : bool :=
  match p with
  | Some q => negb (str_eqb s q)
  | None => true
  end.

(** [l[0]]. *)
Definition first_item {A} (l : list A) : Result A :=
  match l with
  | x :: _ => Return x
  | [] => Raise IndexError
  end.

Definition as_dict (values : list (str * str)) : pyval :=
  PyDict (map (fun kv => (fst kv, PyStr (snd kv))) values).

(** ** The methods *)

Section Client.

(** The remote service and the HTTP layer are outside this module.  [send]
    is the transport: it takes one request to the remote [World], which it
    may change, and brings back a status code and a decoded body. *)
Variable World : Type.
Variable send : World -> Request -> Response * World.

(** The builtin [str()] on objects other than strings and [None]. *)
Variable py_str : pyval -> str.

(** ["...%s" % v]. *)
Definition percent_s (v : pyval) : str :=
  match v with
  | PyStr s => s
  | PyNone => lit "None"
  | _ => py_str v
  end.

Record State : Type := {
  self : DataCiteRESTClient;
  world : World
}.

(** The outcome of running a method: what it returned or raised, the state
    it left, and the exchanges it had with the transport, in order. *)
Record Run (A : Type) : Type := {
  result : Result A;
  final : State;
  wire : list Exchange
}.

Definition M (A : Type) : Type := State -> Run A.

Definition ret {A} (a : A) : M A :=
  fun st => {| result := Return a; final := st; wire := [] |}.

Definition raise {A} (e : exn) : M A :=
  fun st => {| result := Raise e; final := st; wire := [] |}.

Definition lift {A} (r : Result A) : M A :=
  fun st => {| result := r; final := st; wire := [] |}.

Definition bind {A B} (m : M A) (k : A -> M B) : M B :=
  fun st =>
    match m st with
    | {| result := Return a; final := st1; wire := w1 |} =>
        match k a st1 with
        | {| result := r; final := st2; wire := w2 |} =>
            {| result := r; final := st2; wire := w1 ++ w2 |}
        end
    | {| result := Raise e; final := st1; wire := w1 |} =>
        {| result := Raise e; final := st1; wire := w1 |}
    end.

Notation "x <- m ;; k" := (bind m (fun x => k))
  (at level 61, m at next level, right associativity).

Definition get_self : M DataCiteRESTClient :=
  fun st => {| result := Return (self st); final := st; wire := [] |}.

(** Modelled from the spec: the [get], [post] and [delete] methods of
    [DataCiteRequest] ([request.py], not part of this module).  Each is one
    request through the transport, after which [r.code] and [r.data] hold
    the status code and the decoded body. *)
Definition perform (r : DataCiteRequest) (m : Method) (url : str)
    (body : option str) (headers : option (list (str * str))) : M Response :=
  fun st =>
    let rq := {| via := r; method := m; url := url; body := body;
                 headers := headers |} in
    let (rs, w) := send (world st) rq in
    {| result := Return rs;
       final := {| self := self st; world := w |};
       wire := [(rq, rs)] |}.

Definition _request_factory : M DataCiteRequest :=
  c <- get_self ;;
  let params := [] in
  ret {| base_url := api_url c;
         req_username := username c;
         req_password := password c;
         default_params := params;
         req_timeout := timeout c |}.

Definition doi_get (doi : str) : M pyval :=
  r <- _request_factory ;;
  rs <- perform r GET (lit "dois/" ++ doi) None None ;;
  if (code rs =? 200)%Z then
    attributes <- lift (subscript (data rs) (lit "attributes")) ;;
    lift (subscript attributes (lit "url"))
  else raise (DataCiteError (factory (code rs) (data rs))).

(** [draft_doi].  [doi] is a local of the function (it is assigned in the
    [else] branch), unbound on entry; [location] is not assigned anywhere in
    the function, so it is read from the module namespace. *)
Definition draft_doi (new_doi : option str) : M pyval :=
  c <- get_self ;;
  let headers :=
    [(lit "Content-Type", lit "content-type: application/vnd.api+json")] in
  let data' :=
    PyDict [(lit "data",
             PyDict [(lit "attributes",
                      PyDict [(lit "prefix", of_option (prefix c))])])] in
  let doi : option str := None in
  data' <- (if truthy new_doi then
              let suffix := match new_doi with Some s => s | None => [] end in
              doi <- (if contains SLASH suffix then
                        d <- lift (load_local (lit "doi") doi) ;;
                        let split := str_split SLASH None d in
                        s0 <- lift (first_item split) ;;
                        if differs s0 (prefix c) then raise ValueError
                        else ret doi
                      else
                        p <- lift (str_add (prefix c) (lit "/")) ;;
                        ret (Some (p ++ suffix))) ;;
              ret (PyDict [(lit "data",
                            PyDict [(lit "attributes",
                                     PyDict [(lit "doi", of_option new_doi)])])])
            else ret data') ;;
  location <- lift (load_global (lit "location")) ;;
  let body := str_join CRLF [lit "doi=" ++ percent_s (of_option new_doi);
                             lit "url=" ++ percent_s location] in
  r <- _request_factory ;;
  rs <- perform r POST (lit "doi") (Some body) (Some headers) ;;
  if (code rs =? 201)%Z then ret (data rs)
  else raise (DataCiteError (factory (code rs) (data rs))).

Definition doi_post (new_doi location : str) : M pyval :=
  let headers := [(lit "Content-Type", lit "text/plain;charset=UTF-8")] in
  let body := str_join CRLF [lit "doi=" ++ new_doi; lit "url=" ++ location] in
  r <- _request_factory ;;
  rs <- perform r POST (lit "doi") (Some body) (Some headers) ;;
  if (code rs =? 201)%Z then ret (data rs)
  else raise (DataCiteError (factory (code rs) (data rs))).

Definition metadata_get (doi : str) : M pyval :=
  let headers := [(lit "Accept", lit "application/xml");
                  (lit "Accept-Encoding", lit "UTF-8")] in
  r <- _request_factory ;;
  rs <- perform r GET (lit "metadata/" ++ doi) None (Some headers) ;;
  if (code rs =? 200)%Z then ret (data rs)
  else raise (DataCiteError (factory (code rs) (data rs))).

Definition metadata_post (metadata : str) : M pyval :=
  let headers := [(lit "Content-Type", lit "application/xml;charset=UTF-8")] in
  r <- _request_factory ;;
  rs <- perform r POST (lit "metadata") (Some metadata) (Some headers) ;;
  if (code rs =? 201)%Z then ret (data rs)
  else raise (DataCiteError (factory (code rs) (data rs))).

Definition metadata_delete (doi : str) : M pyval :=
  r <- _request_factory ;;
  rs <- perform r DELETE (lit "metadata/" ++ doi) None None ;;
  if (code rs =? 200)%Z then ret (data rs)
  else raise (DataCiteError (factory (code rs) (data rs))).

Definition media_get (doi : str) : M (list (str * str)) :=
  r <- _request_factory ;;
  rs <- perform r GET (lit "media/" ++ doi) None None ;;
  if (code rs =? 200)%Z then lift (media_values (data rs))
  else raise (DataCiteError (factory (code rs) (data rs))).

Definition media_post (doi : str) (media : list (str * str)) : M pyval :=
  let headers := [(lit "Content-Type", lit "text/plain;charset=UTF-8")] in
  let body := media_body media in
  r <- _request_factory ;;
  rs <- perform r POST (lit "media/" ++ doi) (Some body) (Some headers) ;;
  if (code rs =? 200)%Z then ret (data rs)
  else raise (DataCiteError (factory (code rs) (data rs))).

(** The public operations, as calls with their arguments. *)
Inductive Op : Type :=
| DoiGet (doi : str)
| DraftDoi (new_doi : option str)
| DoiPost (new_doi location : str)
| MetadataGet (doi : str)
| MetadataPost (metadata : str)
| MetadataDelete (doi : str)
| MediaGet (doi : str)
| MediaPost (doi : str) (media : list (str * str)).

Definition call (op : Op) : M pyval :=
  match op with
  | DoiGet doi => doi_get doi
  | DraftDoi new_doi => draft_doi new_doi
  | DoiPost new_doi location => doi_post new_doi location
  | MetadataGet doi => metadata_get doi
  | MetadataPost metadata => metadata_post metadata
  | MetadataDelete doi => metadata_delete doi
  | MediaGet doi => values <- media_get doi ;; ret (as_dict values)
  | MediaPost doi media => media_post doi media
  end.

(** The status each operation takes as success. *)
Definition success_code (op : Op) : Z :=
  match op with
  | DoiGet _ | MetadataGet _ | MetadataDelete _ | MediaGet _
  | MediaPost _ _ => 200
  | DraftDoi _ | DoiPost _ _ | MetadataPost _ => 201
  end.

End Client.

(** ** Vocabulary of the statements *)

(** Number of ['/'] characters the string ends with. *)
Fixpoint leading_slashes (s : str) : nat :=
  match s with
  | c :: r => if char_eqb c SLASH then S (leading_slashes r) else O
  | [] => O
  end.

Definition trailing_slashes (s : str) : nat := leading_slashes (rev s).

Definition ends_with_slash (s : str) : bool :=
  match last_char s with
  | Some c => char_eqb c SLASH
  | None => false
  end.

(** The decoded body [{"data": {"attributes": {"url": "http://x.org"}}}]. *)
Definition resolve_body : pyval :=
  PyDict [(lit "data",
           PyDict [(lit "attributes",
                    PyDict [(lit "url", PyStr (lit "http://x.org"))])])].

Definition no_linebreak (s : str) : bool :=
  forallb (fun c => negb (is_linebreak c)) s.

(** An item of a media mapping that the wire format can carry: no ['='] in
    the key and no line boundary in the key or the value. *)
Definition wire_safe (kv : str * str) : bool :=
  negb (contains EQUALS (fst kv)) && no_linebreak (fst kv)
  && no_linebreak (snd kv).

(** The mapping of the specification's example. *)
Definition example_media : list (str * str) :=
  [ (lit "text/plain", lit "http://example.org/a");
    (lit "application/pdf", lit "http://example.org/b") ].

(** A transport that plays back a list of prepared responses, one for each
    request, and answers 503 once the list is used up. *)
Definition Script : Type := list Response.

Definition scripted (w : Script) (rq : Request) : Response * Script :=
  match w with
  | rs :: w' => (rs, w')
  | [] => ({| code := 503; data := PyStr [] |}, [])
  end.

Definition shown (v : pyval) : str := lit "<object>".

(** [DataCiteRESTClient()], every argument left at its default. *)
Definition default_client : DataCiteRESTClient :=
  {| username := None; password := None; prefix := None;
     api_ver := lit "2"; api_url := lit "https://api.datacite.org/";
     timeout := PyNone |}.

(** [DataCiteRESTClient(username="user", password="pw", prefix="10.1234")]. *)
Definition example_client : DataCiteRESTClient :=
  {| username := Some (lit "user"); password := Some (lit "pw");
     prefix := Some (lit "10.1234");
     api_ver := lit "2"; api_url := lit "https://api.datacite.org/";
     timeout := PyNone |}.

Definition facing (c : DataCiteRESTClient) (w : Script) : State Script :=
  {| self := c; world := w |}.

(** Where [splitlines] resumes after the boundary [c]: past the ['\n'] of a
    CR LF pair, else right after [c]. *)
Definition after_break (c : char) (rest : str) : str :=
  match rest with
  | c' :: rest' => if char_eqb c CR && char_eqb c' LF then rest' else rest
  | [] => rest
  end.

(** The HTTP method each operation uses when it sends its request. *)
Definition http_method (op : Op) : Method :=
  match op with
  | DoiGet _ | MetadataGet _ | MediaGet _ => GET
  | MetadataDelete _ => DELETE
  | DraftDoi _ | DoiPost _ _ | MetadataPost _ | MediaPost _ _ => POST
  end.

(** The operations whose success branch is [return r.data]. *)
Definition returns_raw_body (op : Op) : bool :=
  match op with
  | DoiPost _ _ | MetadataGet _ | MetadataPost _ | MetadataDelete _
  | MediaPost _ _ => true
  | DoiGet _ | DraftDoi _ | MediaGet _ => false
  end.

Definition is_draft (op : Op) : bool :=
  match op with
  | DraftDoi _ => true
  | _ => false
  end.

(** The request object that [_request_factory] builds for a client. *)
Definition request_object (c : DataCiteRESTClient) : DataCiteRequest :=
  {| base_url := api_url c; req_username := username c;
     req_password := password c; default_params := [];
     req_timeout := timeout c |}.

(** A remote service that keeps, for each path, the last body posted to it:
    a POST stores its body and answers 200 "OK", a GET answers 200 with the
    stored body or 404, a DELETE forgets the path. *)
Definition Store : Type := list (str * str).

Definition store_service (w : Store) (rq : Request) : Response * Store :=
  match method rq with
  | POST =>
      match body rq with
      | Some b => ({| code := 200; data := PyStr (lit "OK") |},
                   dict_set (url rq) b w)
      | None => ({| code := 400; data := PyStr (lit "no body") |}, w)
      end
  | GET =>
      match dict_get (url rq) w with
      | Some b => ({| code := 200; data := PyStr b |}, w)
      | None => ({| code := 404; data := PyStr (lit "not found") |}, w)
      end
  | DELETE =>
      ({| code := 200; data := PyStr (lit "OK") |},
       filter (fun kv => negb (str_eqb (url rq) (fst kv))) w)
  end.

(** * Properties *)

(** ** Strings *)

Lemma char_eqb_eq (a b : char) : char_eqb a b = true <-> a = b.
Proof. apply N.eqb_eq. Qed.

Lemma char_eqb_refl (a : char) : char_eqb a a = true.
Proof. apply N.eqb_refl. Qed.

Lemma str_eqb_eq (a b : str) : str_eqb a b = true <-> a = b.
Proof.
  revert b; induction a as [|x a IH]; intros [|y b]; simpl; split;
    try congruence; try reflexivity.
  - intros H. apply andb_true_iff in H as [Hx Ha].
    apply char_eqb_eq in Hx. apply IH in Ha. congruence.
  - intros H. injection H as -> ->.
    rewrite char_eqb_refl. simpl. now apply IH.
Qed.

Lemma str_eqb_neq (a b : str) : str_eqb a b = false <-> a <> b.
Proof.
  destruct (str_eqb a b) eqn:E; split; try congruence.
  - apply str_eqb_eq in E. intros H. now elim H.
  - intros _ H. apply str_eqb_eq in H. congruence.
Qed.

Lemma contains_In (c : char) (s : str) : contains c s = true <-> In c s.
Proof.
  unfold contains. rewrite existsb_exists. split.
  - intros (x & Hx & E). apply char_eqb_eq in E. now subst.
  - intros H. exists c. split; [assumption | apply char_eqb_refl].
Qed.

Lemma contains_app (c : char) (a b : str) :
  contains c (a ++ b) = contains c a || contains c b.
Proof. unfold contains. apply existsb_app. Qed.

Lemma last_char_snoc (s : str) (c : char) : last_char (s ++ [c]) = Some c.
Proof.
  induction s as [|x s IH]; [reflexivity|].
  simpl. rewrite IH. destruct (s ++ [c]) eqn:E; [|reflexivity].
  now destruct s.
Qed.

Lemma last_char_rev (s : str) :
  last_char s = match rev s with c :: _ => Some c | [] => None end.
Proof.
  induction s as [|x s _] using rev_ind; [reflexivity|].
  rewrite last_char_snoc, rev_app_distr. reflexivity.
Qed.

Lemma last_char_none (s : str) : last_char s = None -> s = [].
Proof.
  rewrite last_char_rev. destruct (rev s) eqn:E; [|discriminate].
  intros _. rewrite <- (rev_involutive s), E. reflexivity.
Qed.

Lemma trailing_slashes_snoc (s : str) (c : char) :
  trailing_slashes (s ++ [c]) =
  if char_eqb c SLASH then S (trailing_slashes s) else O.
Proof. unfold trailing_slashes. rewrite rev_app_distr. reflexivity. Qed.

Lemma trailing_slashes_last (s : str) (c : char) :
  last_char s = Some c ->
  (char_eqb c SLASH = true -> (1 <= trailing_slashes s)%nat) /\
  (char_eqb c SLASH = false -> trailing_slashes s = O).
Proof.
  unfold trailing_slashes. rewrite last_char_rev.
  destruct (rev s) as [|x r]; [discriminate|].
  intros [= ->]. simpl. split; intros E; rewrite E; [lia | reflexivity].
Qed.

(** ** Construction *)

Lemma init_append_only_when_missing
    (username password prefix : option str) (u : str) (api_ver : str)
    (timeout : pyval) :
  u <> [] ->
  __init__ username password (Some u) prefix false api_ver timeout =
  Return {| username := username; password := password; prefix := prefix;
            api_ver := api_ver;
            api_url := if ends_with_slash u then u else u ++ lit "/";
            timeout := timeout |}.
Proof.
  intros Hu. unfold __init__. destruct u as [|x u]; [congruence|]. simpl truthy.
  cbv iota. unfold ends_with_slash.
  destruct (last_char (x :: u)) as [c|] eqn:L.
  - simpl. destruct (char_eqb c SLASH); reflexivity.
  - apply last_char_none in L. discriminate.
Qed.

(** C7, as amended.  Construction never fails.  The stored base URL always
    ends in ['/']: the sandbox URL when [test_mode] is set, else the given
    URL (the production URL when none or an empty one is given), with one
    ['/'] appended exactly when its last character is not ['/'].  So a URL
    that already ends in several ['/'] keeps them all, and the result ends
    in exactly one ['/'] in every other case.  Building a client again from
    the stored base URL gives the same client, and the two example URLs give
    the same base ["https://example.org/"]. *)
Theorem init_base_url_normalized
    (username password url prefix : option str) (test_mode : bool)
    (api_ver : str) (timeout : pyval) :
  exists c,
    __init__ username password url prefix test_mode api_ver timeout = Return c /\
    last_char (api_url c) = Some SLASH /\
    trailing_slashes (api_url c) =
      (if test_mode || negb (truthy url) then 1%nat
       else Nat.max 1 (trailing_slashes
                         (match url with Some u => u | None => [] end))) /\
    __init__ username password (Some (api_url c)) prefix false api_ver timeout
      = Return c /\
    __init__ username password (Some (api_url c)) prefix test_mode api_ver
      timeout = Return c /\
    __init__ username password (Some (lit "https://example.org")) prefix false
      api_ver timeout =
    __init__ username password (Some (lit "https://example.org/")) prefix false
      api_ver timeout /\
    exists c1,
      __init__ username password (Some (lit "https://example.org")) prefix
        false api_ver timeout = Return c1 /\
      api_url c1 = lit "https://example.org/".
Proof.
  assert (Hex : forall u : str, u <> [] ->
            exists c,
              __init__ username password (Some u) prefix false api_ver timeout
                = Return c /\
              last_char (api_url c) = Some SLASH /\
              trailing_slashes (api_url c) = Nat.max 1 (trailing_slashes u) /\
              __init__ username password (Some (api_url c)) prefix false
                api_ver timeout = Return c).
  { intros u Hu. rewrite (init_append_only_when_missing _ _ _ _ _ Hu).
    destruct (last_char u) as [c|] eqn:L;
      [|apply last_char_none in L; congruence].
    destruct (trailing_slashes_last _ L) as [Hone Hzero].
    assert (EW : ends_with_slash u = char_eqb c SLASH)
      by (unfold ends_with_slash; now rewrite L).
    rewrite EW. destruct (char_eqb c SLASH) eqn:E.
    - eexists. split; [reflexivity|]. simpl api_url.
      apply char_eqb_eq in E. subst c. repeat split.
      + assumption.
      + specialize (Hone eq_refl). lia.
      + rewrite (init_append_only_when_missing _ _ _ _ _ Hu), EW.
        reflexivity.
    - assert (Hn : u ++ lit "/" <> []) by (now destruct u).
      eexists. split; [reflexivity|]. simpl api_url. repeat split.
      + apply last_char_snoc.
      + change (lit "/") with [SLASH]. rewrite trailing_slashes_snoc.
        rewrite (Hzero eq_refl). reflexivity.
      + rewrite (init_append_only_when_missing _ _ _ _ _ Hn).
        unfold ends_with_slash. change (lit "/") with [SLASH].
        rewrite last_char_snoc. reflexivity. }
  assert (Hfix : forall tm,
            __init__ username password
              (Some (lit "https://api.test.datacite.org/")) prefix tm api_ver
              timeout =
            Return {| username := username; password := password;
                      prefix := prefix; api_ver := api_ver;
                      api_url := lit "https://api.test.datacite.org/";
                      timeout := timeout |})
    by (intros [|]; reflexivity).
  assert (Hexample :
            __init__ username password (Some (lit "https://example.org"))
              prefix false api_ver timeout =
            __init__ username password (Some (lit "https://example.org/"))
              prefix false api_ver timeout /\
            exists c1,
              __init__ username password (Some (lit "https://example.org"))
                prefix false api_ver timeout = Return c1 /\
              api_url c1 = lit "https://example.org/").
  { split; [reflexivity|]. eexists. split; reflexivity. }
  destruct test_mode.
  - eexists. split; [reflexivity|]. simpl api_url.
    split; [reflexivity|]. split; [reflexivity|].
    split; [apply Hfix|]. split; [apply Hfix|]. exact Hexample.
  - simpl orb. destruct (truthy url) eqn:T.
    + destruct url as [[|x u]|]; try discriminate.
      destruct (Hex (x :: u)) as (c & Hc & Hl & Ht & Hi); [discriminate|].
      exists c. simpl negb. cbv iota.
      split; [exact Hc|]. split; [exact Hl|]. split; [exact Ht|].
      split; [exact Hi|]. split; [exact Hi|]. exact Hexample.
    + assert (Hd : __init__ username password url prefix false api_ver timeout
                   = Return {| username := username; password := password;
                      prefix := prefix; api_ver := api_ver;
                      api_url := lit "https://api.datacite.org/";
                      timeout := timeout |}).
      { unfold __init__. rewrite T. reflexivity. }
      eexists. split; [exact Hd|]. simpl api_url.
      split; [reflexivity|]. split; [reflexivity|].
      split; [reflexivity|]. split; [reflexivity|]. exact Hexample.
Qed.

(** C7 as stated fails: a base URL that ends in two ['/'] is stored as it
    is, so the stored URL does not end in exactly one ['/']. *)
Lemma init_keeps_repeated_slashes :
  exists c,
    __init__ None None (Some (lit "https://example.org//")) None false
      (lit "2") PyNone = Return c /\
    api_url c = lit "https://example.org//" /\
    trailing_slashes (api_url c) = 2%nat /\
    trailing_slashes (api_url c) <> 1%nat.
Proof.
  eexists. split; [reflexivity|]. simpl api_url.
  split; [reflexivity|]. split; [reflexivity|]. vm_compute. congruence.
Qed.

(** ** Splitting and joining *)

Lemma str_split_exhausted (sep : char) (s : str) :
  str_split sep (Some O) s = [s].
Proof.
  induction s as [|c r IH]; [reflexivity|].
  simpl. rewrite IH. now destruct (char_eqb c sep).
Qed.

Lemma str_split_first (sep : char) (a b : str) :
  contains sep a = false ->
  str_split sep (Some 1%nat) (a ++ sep :: b) = [a; b].
Proof.
  induction a as [|c a IH]; intros H.
  - simpl. now rewrite char_eqb_refl, str_split_exhausted.
  - unfold contains in H. simpl in H. apply orb_false_iff in H as [Hc Ha].
    simpl. unfold char_eqb in *. rewrite N.eqb_sym in Hc. rewrite Hc.
    unfold contains in IH. rewrite (IH Ha). reflexivity.
Qed.

Lemma str_split_absent (sep : char) (n : option nat) (s : str) :
  contains sep s = false -> str_split sep n s = [s].
Proof.
  induction s as [|c r IH]; intros H; [reflexivity|].
  unfold contains in H. simpl in H. apply orb_false_iff in H as [Hc Hr].
  simpl. unfold char_eqb in *. rewrite N.eqb_sym in Hc. rewrite Hc.
  unfold contains in IH. rewrite (IH Hr). reflexivity.
Qed.

Lemma str_split_present (sep : char) (s : str) :
  contains sep s = true ->
  exists a b, str_split sep (Some 1%nat) s = [a; b] /\ s = a ++ sep :: b /\
              contains sep a = false.
Proof.
  induction s as [|c r IH]; intros H; [discriminate|].
  destruct (char_eqb c sep) eqn:E.
  - exists [], r. simpl. rewrite E, str_split_exhausted.
    apply char_eqb_eq in E. subst. repeat split.
  - unfold contains in H. simpl in H. unfold char_eqb in *.
    rewrite N.eqb_sym, E in H. simpl in H.
    destruct (IH H) as (a & b & Hs & -> & Ha).
    exists (c :: a), b. simpl. unfold char_eqb. rewrite E.
    simpl in Hs. rewrite Hs. repeat split.
    unfold contains. simpl. unfold char_eqb. rewrite N.eqb_sym, E. exact Ha.
Qed.

Lemma splitlines_from_segment (l line rest : str) :
  no_linebreak l = true ->
  splitlines_from line (l ++ rest) = splitlines_from (rev l ++ line) rest.
Proof.
  revert line. induction l as [|c l IH]; intros line H; [reflexivity|].
  simpl in H. apply andb_true_iff in H as [Hc Hl].
  simpl. destruct (is_linebreak c); [discriminate|].
  rewrite (IH _ Hl), <- app_assoc. reflexivity.
Qed.

Lemma splitlines_from_CRLF (line rest : str) :
  splitlines_from line (CRLF ++ rest) = rev line :: splitlines_from [] rest.
Proof. reflexivity. Qed.

Lemma splitlines_join (lines : list str) :
  Forall (fun l => l <> [] /\ no_linebreak l = true) lines ->
  splitlines (str_join CRLF lines) = lines.
Proof.
  unfold splitlines. induction lines as [|p ps IH]; intros H; [reflexivity|].
  inversion H as [|? ? [Hne Hp] Hps]; subst.
  destruct ps as [|q ps].
  - simpl. rewrite <- (app_nil_r p) at 1.
    rewrite (splitlines_from_segment _ _ _ Hp), app_nil_r. simpl.
    destruct (rev p) eqn:E.
    + apply (f_equal (@rev char)) in E. rewrite rev_involutive in E.
      now elim Hne.
    + rewrite <- E, rev_involutive. reflexivity.
  - change (str_join CRLF (p :: q :: ps))
      with (p ++ CRLF ++ str_join CRLF (q :: ps)).
    rewrite (splitlines_from_segment _ _ _ Hp), app_nil_r.
    rewrite splitlines_from_CRLF, rev_involutive, (IH Hps). reflexivity.
Qed.

(** ** Dicts *)

Lemma dict_set_fresh {V} (k : str) (v : V) (d : list (str * V)) :
  ~ In k (keys d) -> dict_set k v d = d ++ [(k, v)].
Proof.
  induction d as [|[k' v'] d IH]; intros H; [reflexivity|].
  simpl in *. destruct (str_eqb k k') eqn:E.
  - apply str_eqb_eq in E. subst. elim H. now left.
  - rewrite IH; [reflexivity|]. intros Hin. apply H. now right.
Qed.

(** ** The media wire format *)

Lemma media_line_split (kv : str * str) :
  contains EQUALS (fst kv) = false ->
  str_split EQUALS (Some 1%nat) (media_line kv) = [fst kv; snd kv].
Proof.
  intros H. unfold media_line. change (lit "=" ++ snd kv) with (EQUALS :: snd kv).
  now apply str_split_first.
Qed.

Lemma media_loop_fresh (media values : list (str * str)) :
  NoDup (keys (values ++ media)) ->
  Forall (fun kv => contains EQUALS (fst kv) = false) media ->
  media_loop (map media_line media) values = Return (values ++ media).
Proof.
  revert values. induction media as [|[k v] media IH]; intros values Hnd Hsafe.
  - simpl. now rewrite app_nil_r.
  - inversion Hsafe as [|? ? Hk Hrest]; subst.
    simpl map. simpl media_loop. rewrite (media_line_split _ Hk). simpl.
    assert (Hfresh : ~ In k (keys values)).
    { unfold keys in *. rewrite map_app in Hnd. simpl in Hnd.
      apply NoDup_remove_2 in Hnd. intros Hin. apply Hnd.
      apply in_or_app. now left. }
    rewrite (dict_set_fresh _ _ _ Hfresh).
    rewrite IH; [now rewrite <- app_assoc | | assumption].
    now rewrite <- app_assoc.
Qed.

Lemma media_loop_malformed (lines : list str) (values : list (str * str)) :
  existsb (fun l => negb (contains EQUALS l)) lines = true ->
  media_loop lines values = Raise ValueError.
Proof.
  revert values. induction lines as [|line rest IH]; intros values H;
    [discriminate|].
  simpl in H. simpl media_loop. destruct (contains EQUALS line) eqn:E.
  - destruct (str_split_present _ _ E) as (a & b & -> & _ & _).
    simpl. apply IH. exact H.
  - rewrite (str_split_absent _ _ _ E). reflexivity.
Qed.

Lemma media_loop_wellformed (lines : list str) (values : list (str * str)) :
  forallb (contains EQUALS) lines = true ->
  exists result, media_loop lines values = Return result.
Proof.
  revert values. induction lines as [|line rest IH]; intros values H.
  - now exists values.
  - simpl in H. apply andb_true_iff in H as [E Hrest]. simpl media_loop.
    destruct (str_split_present _ _ E) as (a & b & -> & _ & _).
    simpl. now apply IH.
Qed.

Lemma existsb_negb_forallb {A} (p : A -> bool) (l : list A) :
  existsb (fun x => negb (p x)) l = negb (forallb p l).
Proof.
  induction l as [|x l IH]; [reflexivity|].
  simpl. rewrite IH. now destruct (p x).
Qed.

(** C6.  A media mapping (a dict, so its keys are distinct) whose keys hold
    no ['='] and whose keys and values hold no line boundary is read back
    unchanged, items in the same order, by the parser of [media_get] from
    the body that [media_post] sends.  Values may hold ['=']. *)
Theorem media_round_trip (media : list (str * str)) :
  NoDup (keys media) ->
  forallb wire_safe media = true ->
  media_values (PyStr (media_body media)) = Return media.
Proof.
  intros Hnd Hsafe. rewrite forallb_forall in Hsafe.
  unfold media_values, media_body. simpl.
  rewrite splitlines_join.
  - apply (@media_loop_fresh media []); [assumption|].
    apply Forall_forall. intros kv Hin. specialize (Hsafe kv Hin).
    unfold wire_safe in Hsafe.
    apply andb_true_iff in Hsafe as [Hsafe _].
    apply andb_true_iff in Hsafe as [Hsafe _].
    now apply negb_true_iff.
  - apply Forall_forall. intros line Hin. apply in_map_iff in Hin.
    destruct Hin as ([k v] & <- & Hin). specialize (Hsafe _ Hin).
    unfold wire_safe in Hsafe. simpl in Hsafe.
    apply andb_true_iff in Hsafe as [Hsafe Hv].
    apply andb_true_iff in Hsafe as [_ Hk].
    unfold media_line. simpl fst. simpl snd. split.
    + now destruct k.
    + unfold no_linebreak in *. rewrite !forallb_app, Hk, Hv. reflexivity.
Qed.

Lemma media_round_trip_example :
  media_body example_media =
    lit "text/plain=http://example.org/a" ++ CRLF ++
    lit "application/pdf=http://example.org/b" /\
  media_values (PyStr (media_body example_media)) = Return example_media.
Proof.
  split; [reflexivity|].
  apply media_round_trip.
  - unfold example_media, keys. simpl map.
    constructor; [|constructor; [|constructor]]; simpl.
    + intros [H|[]]. discriminate H.
    + intros [].
  - reflexivity.
Defined.

(** A value with ['='] in it comes back whole: the line is split once. *)
Example media_value_with_equals :
  media_values (PyStr (media_body [(lit "text/html", lit "http://x.org/?a=1&b=2")]))
  = Return [(lit "text/html", lit "http://x.org/?a=1&b=2")].
Proof. reflexivity. Qed.

(** ** The methods *)

Lemma location_is_unbound :
  load_global (lit "location") = Raise (NameError (lit "location")).
Proof. reflexivity. Qed.

Section ClientProperties.

Variable World : Type.
Variable send : World -> Request -> Response * World.
Variable py_str : pyval -> str.

Arguments lit : simpl never.

Ltac run_method :=
  unfold call, doi_get, draft_doi, doi_post, metadata_get, metadata_post,
    metadata_delete, media_get, media_post, _request_factory, bind, perform,
    get_self, ret, raise, lift;
  cbn [result final wire self world app].

(** *** [draft_doi] *)

(** What [draft_doi] raises, by the configured prefix and the argument. *)
Lemma draft_doi_run (st : State World) (new_doi : option str) :
  draft_doi send py_str new_doi st =
  {| result :=
       Raise (match new_doi with
              | Some (c :: s) =>
                  if contains SLASH (c :: s)
                  then UnboundLocalError (lit "doi")
                  else match prefix (self st) with
                       | Some _ => NameError (lit "location")
                       | None => TypeError
                       end
              | _ => NameError (lit "location")
              end);
     final := st;
     wire := [] |}.
Proof.
  run_method. destruct new_doi as [[|c s]|]; cbn [truthy].
  - cbn [result final wire app]. rewrite location_is_unbound. reflexivity.
  - destruct (contains SLASH (c :: s)); cbn.
    + reflexivity.
    + destruct (prefix (self st)); cbn; reflexivity.
  - cbn [result final wire app]. rewrite location_is_unbound. reflexivity.
Qed.

(** C2, as amended.  Whatever the client and the argument, [draft_doi] raises
    before it sends anything and leaves the state as it was.  It raises
    [UnboundLocalError] for [doi] when the argument holds ['/'], [TypeError]
    when the argument is a non-empty suffix without ['/'] and the client has
    no prefix ([None + '/']), and [NameError] for [location] in every other
    case. *)
Theorem draft_doi_always_raises (st : State World) (new_doi : option str) :
  wire (draft_doi send py_str new_doi st) = [] /\
  final (draft_doi send py_str new_doi st) = st /\
  result (draft_doi send py_str new_doi st) =
    Raise (if truthy new_doi then
             if contains SLASH (match new_doi with Some s => s | None => [] end)
             then UnboundLocalError (lit "doi")
             else match prefix (self st) with
                  | Some _ => NameError (lit "location")
                  | None => TypeError
                  end
           else NameError (lit "location")).
Proof.
  rewrite draft_doi_run. cbn [result final wire].
  split; [reflexivity|]. split; [reflexivity|].
  destruct new_doi as [[|c s]|]; reflexivity.
Qed.

(** C1: the code does not do this.  For an argument that holds ['/'],
    whatever its prefix segment, [draft_doi] sends nothing, as claimed, but
    what it raises is the [UnboundLocalError] of reading [doi], not the
    [ValueError] that the prefix comparison was written to raise. *)
Theorem draft_doi_qualified_unbound (st : State World) (new_doi : str) :
  contains SLASH new_doi = true ->
  wire (draft_doi send py_str (Some new_doi) st) = [] /\
  result (draft_doi send py_str (Some new_doi) st) =
    Raise (UnboundLocalError (lit "doi")) /\
  result (draft_doi send py_str (Some new_doi) st) <> Raise ValueError.
Proof.
  intros H. rewrite draft_doi_run. cbn [result final wire].
  destruct new_doi as [|c s]; [discriminate|]. rewrite H.
  split; [reflexivity|]. split; [reflexivity|]. discriminate.
Qed.

(** C3: the code does not do this.  With prefix [p] configured, neither the
    bare suffix [s] nor the qualified [p/s] reaches the transport: the first
    call stops at [location], the second at [doi], and no identifier is
    sent by either. *)
Theorem draft_doi_suffix_and_qualified (st : State World) (p s : str) :
  prefix (self st) = Some p ->
  s <> [] ->
  contains SLASH s = false ->
  wire (draft_doi send py_str (Some s) st) = [] /\
  wire (draft_doi send py_str (Some (p ++ lit "/" ++ s)) st) = [] /\
  result (draft_doi send py_str (Some s) st) =
    Raise (NameError (lit "location")) /\
  result (draft_doi send py_str (Some (p ++ lit "/" ++ s)) st) =
    Raise (UnboundLocalError (lit "doi")).
Proof.
  intros Hp Hs Hslash. rewrite !draft_doi_run. cbn [result final wire].
  split; [reflexivity|]. split; [reflexivity|].
  destruct s as [|c s]; [congruence|]. rewrite Hslash, Hp.
  split; [reflexivity|].
  assert (Hq : contains SLASH (p ++ lit "/" ++ c :: s) = true).
  { rewrite contains_app. change (lit "/" ++ c :: s) with (SLASH :: c :: s).
    unfold contains at 2. simpl. apply orb_true_r. }
  destruct (p ++ lit "/" ++ c :: s) eqn:E; [discriminate|].
  rewrite Hq. reflexivity.
Qed.

(** *** The methods that send a request *)

Ltac step_send :=
  match goal with
  | |- context [send ?w ?rq] => destruct (send w rq) as [? ?]
  end.

(** C9.  No operation changes the client object: after the call, whether it
    returned or raised, every configuration field is what it was. *)
Theorem call_keeps_configuration (op : Op) (st : State World) :
  self (final (call send py_str op st)) = self st.
Proof.
  destruct op; try (cbn [call]; rewrite draft_doi_run; reflexivity);
    run_method; step_send;
    repeat (cbn [result final wire self];
            match goal with
            | |- context [if ?b then _ else _] => destruct b
            | |- context [match ?x with Return _ => _ | Raise _ => _ end] =>
                destruct x
            end);
    reflexivity.
Qed.

(** C5.  If an operation gets from the transport a status other than the
    one it takes as success, it raises the error built from that status and
    that body, and that exchange is the only one it had. *)
Theorem non_success_status_raises
    (op : Op) (st : State World) (rq : Request) (rs : Response) :
  In (rq, rs) (wire (call send py_str op st)) ->
  code rs <> success_code op ->
  result (call send py_str op st) =
    Raise (DataCiteError (factory (code rs) (data rs))) /\
  wire (call send py_str op st) = [(rq, rs)].
Proof.
  destruct op; cbn [success_code];
    try (cbn [call]; rewrite draft_doi_run; intros []);
    run_method; step_send;
    match goal with
    | |- context [(code ?r =? ?n)%Z] => destruct (Z.eqb_spec (code r) n)
    end; cbn;
    try (intros [[= <- <-]|[]] Hne; first [congruence | now split]).
  - destruct (subscript _ _); cbn;
      [destruct (subscript _ _) | ]; cbn;
      intros [[= <- <-]|[]] Hne; congruence.
  - destruct (media_values _); cbn; intros [[= <- <-]|[]] Hne; congruence.
Qed.

(** *** [doi_get] *)

(** What [doi_get] makes of a 200 response, by the body it is handed. *)
Lemma doi_get_on_200 (st : State World) (doi : str) (rq : Request)
    (rs : Response) :
  In (rq, rs) (wire (doi_get send doi st)) ->
  code rs = 200%Z ->
  result (doi_get send doi st) =
    rbind (subscript (data rs) (lit "attributes")) (fun attributes =>
    subscript attributes (lit "url")) /\
  wire (doi_get send doi st) = [(rq, rs)].
Proof.
  run_method. step_send.
  destruct (Z.eqb_spec (code r) 200);
    [destruct (subscript (data r) (lit "attributes")) eqn:S1;
       [destruct (subscript a (lit "url")) eqn:S2|]|];
    cbn; intros [[= <- <-]|[]] Hcode; try congruence;
    rewrite S1; cbn; try rewrite S2; now split.
Qed.

(** C4: the code does not do this.  Handed status 200 and the decoded body
    [{"data": {"attributes": {"url": "http://x.org"}}}], [doi_get] looks up
    ["attributes"] in the body itself, where the only key is ["data"], and
    raises [KeyError]; it does not return the URL. *)
Theorem doi_get_enveloped_body (st : State World) (doi : str) (rq : Request)
    (rs : Response) :
  In (rq, rs) (wire (doi_get send doi st)) ->
  code rs = 200%Z ->
  data rs = resolve_body ->
  result (doi_get send doi st) = Raise (KeyError (lit "attributes")) /\
  result (doi_get send doi st) <> Return (PyStr (lit "http://x.org")).
Proof.
  intros Hin Hcode Hdata.
  destruct (doi_get_on_200 _ _ _ _ Hin Hcode) as [-> _].
  rewrite Hdata. split; [reflexivity | discriminate].
Qed.

(** The same response with the body left as text fares no better. *)
Lemma doi_get_text_body (st : State World) (doi : str) (rq : Request)
    (rs : Response) (text : str) :
  In (rq, rs) (wire (doi_get send doi st)) ->
  code rs = 200%Z ->
  data rs = PyStr text ->
  result (doi_get send doi st) = Raise TypeError.
Proof.
  intros Hin Hcode Hdata.
  destruct (doi_get_on_200 _ _ _ _ Hin Hcode) as [-> _].
  rewrite Hdata. reflexivity.
Qed.

(** The URL is returned when ["attributes"] is a key of the body itself. *)
Lemma doi_get_bare_resource (st : State World) (doi : str) (rq : Request)
    (rs : Response) (location : pyval) :
  In (rq, rs) (wire (doi_get send doi st)) ->
  code rs = 200%Z ->
  data rs = PyDict [(lit "attributes", PyDict [(lit "url", location)])] ->
  result (doi_get send doi st) = Return location.
Proof.
  intros Hin Hcode Hdata.
  destruct (doi_get_on_200 _ _ _ _ Hin Hcode) as [-> _].
  rewrite Hdata. reflexivity.
Qed.

(** *** [doi_post] *)

(** C8.  [doi_post] has exactly one exchange: a POST to ["doi"] with the
    text content type and the body [doi=<doi> CR LF url=<location>].  On
    status 201 it returns the body it was handed, whatever it says; on any
    other status it raises the error built from the status and the body. *)
Theorem doi_post_request_and_outcome (st : State World)
    (new_doi location : str) :
  exists rq rs,
    wire (doi_post send new_doi location st) = [(rq, rs)] /\
    send (world st) rq = (rs, world (final (doi_post send new_doi location st))) /\
    method rq = POST /\
    url rq = lit "doi" /\
    headers rq = Some [(lit "Content-Type", lit "text/plain;charset=UTF-8")] /\
    body rq = Some (lit "doi=" ++ new_doi ++ CRLF ++ lit "url=" ++ location) /\
    result (doi_post send new_doi location st) =
      if (code rs =? 201)%Z then Return (data rs)
      else Raise (DataCiteError (factory (code rs) (data rs))).
Proof.
  run_method.
  match goal with
  | |- context [send ?w ?q] => exists q; destruct (send w q) as [rs w'] eqn:E
  end.
  exists rs. destruct (code rs =? 201)%Z; cbn;
    (split; [reflexivity|]); (split; [reflexivity|]);
    (split; [reflexivity|]); (split; [reflexivity|]);
    (split; [reflexivity|]); (split; [|reflexivity]);
    cbn [str_join]; now rewrite <- app_assoc.
Qed.

(** *** [media_get] *)

(** C10.  Handed status 200 and a text body, [media_get] raises [ValueError]
    (the failed unpacking) as soon as one line of the body has no ['='],
    and it returns a mapping only when every line has one. *)
Theorem media_get_rejects_malformed (st : State World) (doi : str)
    (rq : Request) (rs : Response) (text : str) :
  In (rq, rs) (wire (media_get send doi st)) ->
  code rs = 200%Z ->
  data rs = PyStr text ->
  (existsb (fun l => negb (contains EQUALS l)) (splitlines text) = true ->
   result (media_get send doi st) = Raise ValueError) /\
  (forallb (contains EQUALS) (splitlines text) = true ->
   exists values, result (media_get send doi st) = Return values) /\
  (forall values, result (media_get send doi st) = Return values ->
   forallb (contains EQUALS) (splitlines text) = true).
Proof.
  run_method. step_send.
  destruct (Z.eqb_spec (code r) 200); cbn;
    intros [[= <- <-]|[]] Hcode Hdata; [|congruence].
  rewrite Hdata. unfold media_values. cbn [call_splitlines rbind].
  split; [|split].
  - apply media_loop_malformed.
  - apply media_loop_wellformed.
  - intros values Hret.
    destruct (forallb (contains EQUALS) (splitlines text)) eqn:F;
      [reflexivity|].
    rewrite media_loop_malformed in Hret; [discriminate|].
    now rewrite existsb_negb_forallb, F.
Qed.

End ClientProperties.

(** ** Scenarios *)

Example default_client_built :
  __init__ None None None None false (lit "2") PyNone = Return default_client.
Proof. reflexivity. Qed.

Example example_client_built :
  __init__ (Some (lit "user")) (Some (lit "pw")) None (Some (lit "10.1234"))
    false (lit "2") PyNone = Return example_client.
Proof. reflexivity. Qed.

(** C2 as stated fails: on a client built without a prefix, a bare suffix
    makes [draft_doi] raise [TypeError], which is not a [NameError]. *)
Lemma draft_doi_without_prefix :
  result (draft_doi scripted shown (Some (lit "abc")) (facing default_client []))
    = Raise TypeError /\
  ~ (exists e,
       result (draft_doi scripted shown (Some (lit "abc"))
                 (facing default_client [])) = Raise e /\
       is_NameError e = true).
Proof.
  split; [reflexivity|].
  intros (e & He & Hname). vm_compute in He. injection He as <-.
  discriminate Hname.
Qed.

Lemma draft_doi_wrong_prefix :
  contains SLASH (lit "10.9999/abc") = true /\
  wire (draft_doi scripted shown (Some (lit "10.9999/abc"))
          (facing example_client [])) = [] /\
  result (draft_doi scripted shown (Some (lit "10.9999/abc"))
            (facing example_client [])) = Raise (UnboundLocalError (lit "doi")) /\
  result (draft_doi scripted shown (Some (lit "10.9999/abc"))
            (facing example_client [])) <> Raise ValueError.
Proof.
  split; [reflexivity|].
  apply (draft_doi_qualified_unbound scripted shown
           (facing example_client []) (lit "10.9999/abc")).
  reflexivity.
Defined.

Lemma draft_doi_same_identifier :
  wire (draft_doi scripted shown (Some (lit "abc"))
          (facing example_client [])) = [] /\
  wire (draft_doi scripted shown (Some (lit "10.1234/abc"))
          (facing example_client [])) = [] /\
  result (draft_doi scripted shown (Some (lit "abc"))
            (facing example_client [])) = Raise (NameError (lit "location")) /\
  result (draft_doi scripted shown (Some (lit "10.1234/abc"))
            (facing example_client [])) = Raise (UnboundLocalError (lit "doi")).
Proof.
  apply (draft_doi_suffix_and_qualified scripted shown
           (facing example_client []) (p := lit "10.1234") (s := lit "abc")).
  - reflexivity.
  - discriminate.
  - reflexivity.
Defined.

Lemma doi_get_resolve_scenario :
  result (doi_get scripted (lit "10.1234/abc")
            (facing example_client [{| code := 200; data := resolve_body |}]))
    = Raise (KeyError (lit "attributes")) /\
  result (doi_get scripted (lit "10.1234/abc")
            (facing example_client [{| code := 200; data := resolve_body |}]))
    <> Return (PyStr (lit "http://x.org")).
Proof.
  eapply (doi_get_enveloped_body scripted
            (facing example_client [{| code := 200; data := resolve_body |}])
            (lit "10.1234/abc")).
  - left. reflexivity.
  - reflexivity.
  - reflexivity.
Defined.

(** The specification's scenario: status 404 for a metadata fetch. *)
Lemma metadata_get_not_found :
  result (call scripted shown (MetadataGet (lit "10.1234/abc"))
            (facing example_client
               [{| code := 404; data := PyStr (lit "DOI not found") |}]))
    = Raise (DataCiteError (factory 404 (PyStr (lit "DOI not found")))) /\
  exists rq,
    wire (call scripted shown (MetadataGet (lit "10.1234/abc"))
            (facing example_client
               [{| code := 404; data := PyStr (lit "DOI not found") |}]))
    = [(rq, {| code := 404; data := PyStr (lit "DOI not found") |})].
Proof.
  edestruct (non_success_status_raises scripted shown
               (MetadataGet (lit "10.1234/abc"))
               (facing example_client
                  [{| code := 404; data := PyStr (lit "DOI not found") |}]))
    as [Hres Hwire].
  - left. reflexivity.
  - discriminate.
  - split; [exact Hres|]. eexists. exact Hwire.
Defined.

(** A media listing whose second line has no ['=']. *)
Lemma media_get_broken_line :
  result (media_get scripted (lit "10.1234/abc")
            (facing example_client
               [{| code := 200;
                   data := PyStr (lit "text/plain=http://example.org/a" ++ [LF]
                                  ++ lit "broken") |}]))
    = Raise ValueError.
Proof.
  eapply (media_get_rejects_malformed scripted
            (facing example_client
               [{| code := 200;
                   data := PyStr (lit "text/plain=http://example.org/a" ++ [LF]
                                  ++ lit "broken") |}])
            (lit "10.1234/abc")).
  - left. reflexivity.
  - reflexivity.
  - reflexivity.
  - reflexivity.
Defined.

(** The specification's scenario for the legacy form: status 201 and the
    service's echo come back as they are. *)
Example doi_post_echo :
  result (doi_post scripted (lit "10.1234/abc") (lit "http://example.org/")
            (facing example_client
               [{| code := 201; data := PyStr (lit "DOI" ++ [LF] ++ lit "URL" ++ [LF]) |}]))
  = Return (PyStr (lit "DOI" ++ [LF] ++ lit "URL" ++ [LF])).
Proof. reflexivity. Qed.

(** * Further properties *)

Unset Implicit Arguments.

(** ** Construction and display *)

(** X1.  [__init__] never fails and stores every argument but the URL as given.
    With [test_mode] set the URL argument is ignored; without it, a missing
    or empty URL gives the production endpoint. *)
Theorem init_stores_arguments
    (username' password' url' prefix' : option str) (test_mode : bool)
    (api_ver' : str) (timeout' : pyval) :
  exists c,
    __init__ username' password' url' prefix' test_mode api_ver' timeout'
      = Return c /\
    username c = username' /\ password c = password' /\
    prefix c = prefix' /\ api_ver c = api_ver' /\ timeout c = timeout' /\
    api_url c =
      (if test_mode then lit "https://api.test.datacite.org/"
       else match url' with
            | Some (x :: u) =>
                if ends_with_slash (x :: u) then x :: u
                else (x :: u) ++ lit "/"
            | _ => lit "https://api.datacite.org/"
            end).
Proof.
  destruct test_mode.
  - eexists. split; [reflexivity|]. cbn. tauto.
  - destruct url' as [[|x u]|].
    + eexists. split; [reflexivity|]. cbn. tauto.
    + rewrite init_append_only_when_missing by discriminate.
      eexists. split; [reflexivity|]. cbn. tauto.
    + eexists. split; [reflexivity|]. cbn. tauto.
Qed.

(** X2.  [__repr__] tells clients with different string usernames apart. *)
Theorem repr_distinguishes_usernames (c1 c2 : DataCiteRESTClient)
    (u1 u2 : str) :
  username c1 = Some u1 ->
  username c2 = Some u2 ->
  u1 <> u2 ->
  __repr__ c1 <> __repr__ c2.
Proof.
  unfold __repr__. intros -> -> Hne H. cbn [format_0] in H.
  apply app_inv_head in H. apply app_inv_tail in H. now apply Hne.
Qed.

Lemma repr_distinguishes_usernames_example :
  __repr__ example_client = lit "<DataCiteMDSClient: user>" /\
  __repr__ example_client <>
  __repr__ {| username := Some (lit "other"); password := None;
              prefix := None; api_ver := lit "2";
              api_url := lit "https://api.datacite.org/";
              timeout := PyNone |}.
Proof.
  split; [reflexivity|].
  apply (repr_distinguishes_usernames _ _ (lit "user") (lit "other"));
    [reflexivity | reflexivity | discriminate].
Defined.

(** ** Lines *)

Lemma splitlines_from_break (line : str) (c : char) (rest : str) :
  is_linebreak c = true ->
  splitlines_from line (c :: rest) =
  rev line :: splitlines_from [] (after_break c rest).
Proof.
  intros H. cbn [splitlines_from]. rewrite H. unfold after_break.
  destruct rest as [|c' rest']; [reflexivity|].
  destruct (char_eqb c CR && char_eqb c' LF); reflexivity.
Qed.

Lemma splitlines_from_plain (line : str) (c : char) (rest : str) :
  is_linebreak c = false ->
  splitlines_from line (c :: rest) = splitlines_from (c :: line) rest.
Proof. intros H. cbn [splitlines_from]. now rewrite H. Qed.

Lemma after_break_length (c : char) (rest : str) :
  (List.length (after_break c rest) <= List.length rest)%nat.
Proof.
  unfold after_break. destruct rest as [|c' rest']; [reflexivity|].
  destruct (char_eqb c CR && char_eqb c' LF); cbn; lia.
Qed.

Lemma no_linebreak_rev (s : str) :
  no_linebreak s = true -> no_linebreak (rev s) = true.
Proof.
  unfold no_linebreak. rewrite !forallb_forall. intros H c Hin.
  apply H. now apply in_rev.
Qed.

(** No line that [splitlines] gives holds a line boundary. *)
Lemma splitlines_from_clean (n : nat) :
  forall (s line : str),
    (List.length s <= n)%nat ->
    no_linebreak line = true ->
    Forall (fun l => no_linebreak l = true) (splitlines_from line s).
Proof.
  induction n as [|n IH]; intros s line Hlen Hline.
  - destruct s; [|cbn in Hlen; lia]. cbn.
    destruct line; constructor; [|constructor].
    now apply no_linebreak_rev.
  - destruct s as [|c rest].
    + cbn. destruct line; constructor; [|constructor].
      now apply no_linebreak_rev.
    + cbn in Hlen. destruct (is_linebreak c) eqn:E.
      * rewrite splitlines_from_break by exact E. constructor.
        -- now apply no_linebreak_rev.
        -- apply IH; [|reflexivity].
           pose proof (after_break_length c rest). lia.
      * rewrite splitlines_from_plain by exact E. apply IH; [lia|].
        unfold no_linebreak in *. cbn [forallb]. rewrite E. exact Hline.
Qed.

Lemma splitlines_clean (s : str) :
  Forall (fun l => no_linebreak l = true) (splitlines s).
Proof. now apply (splitlines_from_clean (List.length s)). Qed.

(** One line break at the end of a text does not add a line. *)
Lemma splitlines_from_final_break (n : nat) :
  forall (s line : str),
    (List.length s <= n)%nat ->
    s <> [] \/ line <> [] ->
    (forall c, last_char s = Some c -> is_linebreak c = false) ->
    splitlines_from line (s ++ [LF]) = splitlines_from line s.
Proof.
  induction n as [|n IH]; intros s line Hlen Hne Hlast.
  - destruct s; [|cbn in Hlen; lia].
    destruct Hne as [Hne|Hne]; [congruence|].
    cbn. now destruct line.
  - destruct s as [|c rest].
    + destruct Hne as [Hne|Hne]; [congruence|].
      cbn. now destruct line.
    + cbn in Hlen. cbn [app]. destruct (is_linebreak c) eqn:E.
      * destruct rest as [|c' rest'].
        { specialize (Hlast c eq_refl). congruence. }
        rewrite !splitlines_from_break by exact E. f_equal.
        cbn [app after_break].
        destruct (char_eqb c CR && char_eqb c' LF) eqn:B.
        -- destruct rest' as [|c2 rest2].
           { apply andb_true_iff in B as [_ B]. apply char_eqb_eq in B.
             subst c'. specialize (Hlast LF eq_refl). discriminate. }
           apply IH; [cbn in *; lia | left; discriminate |].
           intros x Hx. apply Hlast. exact Hx.
        -- apply (IH (c' :: rest') []); [lia | left; discriminate |].
           intros x Hx. apply Hlast. exact Hx.
      * rewrite !splitlines_from_plain by exact E.
        apply IH; [lia | right; discriminate |].
        intros x Hx. apply Hlast. destruct rest; [discriminate|exact Hx].
Qed.

(** A line break right after an ['\n'] closes an empty line. *)
Lemma splitlines_from_blank (b : str) (n : nat) :
  forall (a line : str),
    (List.length a <= n)%nat ->
    In [] (splitlines_from line (a ++ LF :: LF :: b)).
Proof.
  assert (Hbase : forall line, In [] (splitlines_from line (LF :: LF :: b))).
  { intros line. rewrite splitlines_from_break by reflexivity.
    right. cbn [after_break]. change (char_eqb LF CR) with false.
    cbn [andb]. rewrite splitlines_from_break by reflexivity. now left. }
  induction n as [|n IH]; intros a line Hlen.
  - destruct a; [|cbn in Hlen; lia]. apply Hbase.
  - destruct a as [|c rest]; [apply Hbase|].
    cbn in Hlen. cbn [app]. destruct (is_linebreak c) eqn:E.
    + rewrite splitlines_from_break by exact E. right.
      destruct rest as [|c' rest']; cbn [app after_break].
      * destruct (char_eqb c CR && char_eqb LF LF).
        -- rewrite splitlines_from_break by reflexivity. now left.
        -- apply Hbase.
      * destruct (char_eqb c CR && char_eqb c' LF).
        -- apply IH. cbn in Hlen. lia.
        -- apply (IH (c' :: rest')). lia.
    + rewrite splitlines_from_plain by exact E. apply IH. lia.
Qed.

(** ** Dicts *)

Lemma str_eqb_refl (a : str) : str_eqb a a = true.
Proof. now apply str_eqb_eq. Qed.

Lemma dict_get_set {V} (k k0 : str) (v : V) (d : list (str * V)) :
  dict_get k (dict_set k0 v d) =
  if str_eqb k k0 then Some v else dict_get k d.
Proof.
  induction d as [|[k' v'] d IH]; cbn.
  - reflexivity.
  - destruct (str_eqb k0 k') eqn:E0; cbn.
    + apply str_eqb_eq in E0. subst k'.
      now destruct (str_eqb k k0).
    + destruct (str_eqb k k') eqn:E1.
      * apply str_eqb_eq in E1. subst k'.
        destruct (str_eqb k k0) eqn:E2; [|reflexivity].
        apply str_eqb_eq in E2. subst k0. rewrite str_eqb_refl in E0.
        discriminate.
      * exact IH.
Qed.

Lemma dict_get_app {V} (k : str) (d1 d2 : list (str * V)) :
  dict_get k (d1 ++ d2) =
  match dict_get k d1 with
  | Some v => Some v
  | None => dict_get k d2
  end.
Proof.
  induction d1 as [|[k' v'] d1 IH]; cbn; [reflexivity|].
  now destruct (str_eqb k k').
Qed.

Lemma in_keys_dict_set {V} (x k : str) (v : V) (d : list (str * V)) :
  In x (keys (dict_set k v d)) -> x = k \/ In x (keys d).
Proof.
  induction d as [|[k' v'] d IH]; cbn.
  - intros [<-|[]]. now left.
  - destruct (str_eqb k k'); cbn; intros [H|H]; auto.
    destruct (IH H); auto.
Qed.

(** Storing into a dict keeps its keys distinct. *)
Lemma dict_set_NoDup {V} (k : str) (v : V) (d : list (str * V)) :
  NoDup (keys d) -> NoDup (keys (dict_set k v d)).
Proof.
  induction d as [|[k' v'] d IH]; cbn; intros H.
  - constructor; [intros []|constructor].
  - inversion H as [|? ? Hnot Hrest]; subst.
    destruct (str_eqb k k') eqn:E; cbn; [exact H|].
    constructor; [|now apply IH].
    intros Hin. apply in_keys_dict_set in Hin as [->|Hin]; [|contradiction].
    rewrite str_eqb_refl in E. discriminate.
Qed.

Lemma dict_set_Forall {V} (P : str * V -> Prop) (k : str) (v : V)
    (d : list (str * V)) :
  Forall P d -> P (k, v) -> Forall P (dict_set k v d).
Proof.
  induction d as [|[k' v'] d IH]; cbn; intros H Hkv.
  - now constructor.
  - inversion H; subst. destruct (str_eqb k k') eqn:E.
    + apply str_eqb_eq in E. subst k'. now constructor.
    + constructor; [assumption | now apply IH].
Qed.

(** ** The media parser *)

Lemma no_linebreak_app (a b : str) :
  no_linebreak (a ++ b) = no_linebreak a && no_linebreak b.
Proof. apply forallb_app. Qed.

(** What a well-formed line gives: a key free of ['='] and, when the line
    is free of line boundaries, an item that the wire format can carry. *)
Lemma split_line_safe (line : str) :
  contains EQUALS line = true ->
  no_linebreak line = true ->
  exists a b,
    str_split EQUALS (Some 1%nat) line = [a; b] /\
    wire_safe (a, b) = true.
Proof.
  intros Hc Hl. destruct (str_split_present _ _ Hc) as (a & b & Hs & -> & Ha).
  exists a, b. split; [exact Hs|].
  rewrite no_linebreak_app in Hl. apply andb_true_iff in Hl as [Hla Hlb].
  change (EQUALS :: b) with ([EQUALS] ++ b) in Hlb.
  rewrite no_linebreak_app in Hlb. apply andb_true_iff in Hlb as [_ Hlb].
  unfold wire_safe. cbn [fst snd]. now rewrite Ha, Hla, Hlb.
Qed.

Lemma media_loop_keeps_mapping (lines : list str) :
  forall (values result : list (str * str)),
    Forall (fun l => no_linebreak l = true) lines ->
    NoDup (keys values) ->
    Forall (fun kv => wire_safe kv = true) values ->
    media_loop lines values = Return result ->
    NoDup (keys result) /\ Forall (fun kv => wire_safe kv = true) result.
Proof.
  induction lines as [|line rest IH]; intros values result Hl Hnd Hsafe Hrun.
  - cbn in Hrun. injection Hrun as <-. now split.
  - inversion Hl as [|? ? Hline Hrest]; subst. cbn [media_loop] in Hrun.
    destruct (contains EQUALS line) eqn:E.
    + destruct (split_line_safe _ E Hline) as (a & b & Hs & Hab).
      rewrite Hs in Hrun. cbn in Hrun.
      apply (IH _ _ Hrest) in Hrun; [exact Hrun | |].
      * now apply dict_set_NoDup.
      * now apply dict_set_Forall.
    + rewrite (str_split_absent _ _ _ E) in Hrun. discriminate.
Qed.

(** Every mapping that the parser of [media_get] gives is a dict (distinct
    keys) whose keys hold no ['='] and whose keys and values hold no line
    boundary. *)
Lemma media_values_wire_safe (data : pyval) (values : list (str * str)) :
  media_values data = Return values ->
  NoDup (keys values) /\ forallb wire_safe values = true.
Proof.
  unfold media_values. destruct data; try discriminate. cbn.
  intros Hrun.
  apply media_loop_keeps_mapping in Hrun as [Hnd Hsafe].
  - split; [exact Hnd|]. apply forallb_forall. intros kv Hin.
    rewrite Forall_forall in Hsafe. now apply Hsafe.
  - apply splitlines_clean.
  - constructor.
  - constructor.
Qed.

(** The body of [media_post], read line by line, gives the mapping back. *)
Lemma media_body_read_back (media : list (str * str)) :
  NoDup (keys media) ->
  forallb wire_safe media = true ->
  media_loop (splitlines (media_body media)) [] = Return media.
Proof.
  intros Hnd Hsafe. rewrite forallb_forall in Hsafe.
  unfold media_body. rewrite splitlines_join.
  - apply (@media_loop_fresh media []); [exact Hnd|].
    apply Forall_forall. intros kv Hin. specialize (Hsafe kv Hin).
    unfold wire_safe in Hsafe. rewrite !andb_true_iff in Hsafe.
    destruct Hsafe as [[Hk _] _]. now apply negb_true_iff.
  - apply Forall_forall. intros line Hin. apply in_map_iff in Hin.
    destruct Hin as ([k v] & <- & Hin). specialize (Hsafe _ Hin).
    unfold wire_safe in Hsafe. cbn [fst snd] in Hsafe.
    rewrite !andb_true_iff in Hsafe. destruct Hsafe as [[_ Hk] Hv].
    unfold media_line. cbn [fst snd]. split; [now destruct k|].
    rewrite !no_linebreak_app, Hk, Hv. reflexivity.
Qed.

(** X14.  A mapping that [media_get] has returned can be sent with [media_post]
    and read again: the parser gives the same mapping from its body. *)
Theorem media_values_reserialize (data : pyval) (values : list (str * str)) :
  media_values data = Return values ->
  media_values (PyStr (media_body values)) = Return values.
Proof.
  intros H. apply media_values_wire_safe in H as [Hnd Hsafe].
  unfold media_values. cbn. now apply media_body_read_back.
Qed.

Lemma media_values_reserialize_example :
  media_values (PyStr (lit "a=1" ++ [LF] ++ lit "b=2" ++ [LF] ++ lit "a=3"))
    = Return [(lit "a", lit "3"); (lit "b", lit "2")] /\
  media_values (PyStr (media_body [(lit "a", lit "3"); (lit "b", lit "2")]))
    = Return [(lit "a", lit "3"); (lit "b", lit "2")].
Proof.
  split; [reflexivity|].
  apply (media_values_reserialize
           (PyStr (lit "a=1" ++ [LF] ++ lit "b=2" ++ [LF] ++ lit "a=3"))).
  reflexivity.
Defined.

(** X13.  A key with ['='] in it does not survive: the line is cut at the first
    ['='] of the key, and the rest of the key goes into the value. *)
Theorem media_key_with_equals (a b v : str) :
  contains EQUALS a = false ->
  no_linebreak (a ++ EQUALS :: b) = true ->
  no_linebreak v = true ->
  media_values (PyStr (media_body [(a ++ EQUALS :: b, v)])) =
  Return [(a, b ++ EQUALS :: v)].
Proof.
  intros Ha Hk Hv. unfold media_values, media_body. cbn [map].
  cbn [call_splitlines rbind].
  rewrite (@splitlines_join [media_line (a ++ EQUALS :: b, v)]).
  - unfold media_line. cbn [fst snd media_loop].
    change (lit "=" ++ v) with (EQUALS :: v).
    rewrite <- app_assoc. cbn [app].
    rewrite (@str_split_first EQUALS a (b ++ EQUALS :: v) Ha). reflexivity.
  - constructor; [|constructor]. unfold media_line. cbn [fst snd]. split.
    + now destruct a.
    + rewrite no_linebreak_app, Hk. change (lit "=" ++ v) with ([EQUALS] ++ v).
      rewrite no_linebreak_app, Hv. reflexivity.
Qed.

Lemma media_key_with_equals_example :
  media_values (PyStr (media_body [(lit "a=b", lit "http://x.org")])) =
  Return [(lit "a", lit "b=http://x.org")].
Proof.
  apply (media_key_with_equals (lit "a") (lit "b") (lit "http://x.org"));
    reflexivity.
Defined.

Lemma media_loop_last_wins (pairs : list (str * str)) :
  forall values : list (str * str),
    Forall (fun kv => contains EQUALS (fst kv) = false) pairs ->
    exists result,
      media_loop (map media_line pairs) values = Return result /\
      forall k,
        dict_get k result =
        match dict_get k (rev pairs) with
        | Some v => Some v
        | None => dict_get k values
        end.
Proof.
  induction pairs as [|[k0 v0] pairs IH]; intros values Hsafe.
  - exists values. split; reflexivity.
  - inversion Hsafe as [|? ? Hk Hrest]; subst.
    cbn [map media_loop]. rewrite (media_line_split _ Hk).
    cbn [unpack2 rbind fst snd].
    destruct (IH (dict_set k0 v0 values) Hrest) as (result & Hrun & Hget).
    exists result. split; [exact Hrun|].
    intros k. rewrite Hget. cbn [rev]. rewrite dict_get_app, dict_get_set.
    destruct (dict_get k (rev pairs)); [reflexivity|].
    cbn [dict_get]. now destruct (str_eqb k k0).
Qed.

(** X9.  When a listing names a MIME type on several lines, [media_get]'s parser
    keeps one entry for it, holding the URL of the last of those lines. *)
Theorem media_repeated_type_last_wins (pairs : list (str * str)) :
  forallb wire_safe pairs = true ->
  exists result,
    media_values (PyStr (media_body pairs)) = Return result /\
    NoDup (keys result) /\
    forall k, dict_get k result = dict_get k (rev pairs).
Proof.
  intros Hsafe. rewrite forallb_forall in Hsafe.
  assert (Hkeys : Forall (fun kv => contains EQUALS (fst kv) = false) pairs).
  { apply Forall_forall. intros kv Hin. specialize (Hsafe kv Hin).
    unfold wire_safe in Hsafe. rewrite !andb_true_iff in Hsafe.
    destruct Hsafe as [[Hk _] _]. now apply negb_true_iff. }
  destruct (media_loop_last_wins pairs [] Hkeys) as (result & Hrun & Hget).
  assert (Hlines : splitlines (media_body pairs) = map media_line pairs).
  { unfold media_body. apply splitlines_join.
    apply Forall_forall. intros line Hin. apply in_map_iff in Hin.
    destruct Hin as ([k v] & <- & Hin). specialize (Hsafe _ Hin).
    unfold wire_safe in Hsafe. cbn [fst snd] in Hsafe.
    rewrite !andb_true_iff in Hsafe. destruct Hsafe as [[_ Hk] Hv].
    unfold media_line. cbn [fst snd]. split; [now destruct k|].
    rewrite !no_linebreak_app, Hk, Hv. reflexivity. }
  assert (Hvalues : media_values (PyStr (media_body pairs)) = Return result).
  { unfold media_values. cbn [call_splitlines rbind]. now rewrite Hlines. }
  exists result. split; [exact Hvalues|]. split.
  - now apply media_values_wire_safe in Hvalues as [Hnd _].
  - intros k. rewrite Hget. now destruct (dict_get k (rev pairs)).
Qed.

Lemma media_repeated_type_example :
  exists result,
    media_values
      (PyStr (media_body [(lit "text/plain", lit "http://example.org/old");
                          (lit "image/png", lit "http://example.org/p");
                          (lit "text/plain", lit "http://example.org/new")]))
      = Return result /\
    dict_get (lit "text/plain") result = Some (lit "http://example.org/new") /\
    List.length result = 2%nat.
Proof.
  destruct (media_repeated_type_last_wins
              [(lit "text/plain", lit "http://example.org/old");
               (lit "image/png", lit "http://example.org/p");
               (lit "text/plain", lit "http://example.org/new")] eq_refl)
    as (result & Hrun & _ & Hget).
  exists result. split; [exact Hrun|]. split.
  - rewrite Hget. reflexivity.
  - vm_compute in Hrun. injection Hrun as <-. reflexivity.
Defined.

(** X11.  One line break at the end of the listing changes nothing: the parser
    gives the same outcome with and without it. *)
Theorem media_values_final_newline (text : str) :
  text <> [] ->
  (forall c, last_char text = Some c -> is_linebreak c = false) ->
  media_values (PyStr (text ++ [LF])) = media_values (PyStr text).
Proof.
  intros Hne Hlast. unfold media_values. cbn [call_splitlines rbind].
  unfold splitlines.
  rewrite (splitlines_from_final_break (List.length text) text []);
    [reflexivity | apply le_n | now left | exact Hlast].
Qed.

Lemma media_values_final_newline_example :
  media_values (PyStr (lit "text/plain=http://example.org/a" ++ [LF])) =
  Return [(lit "text/plain", lit "http://example.org/a")].
Proof.
  rewrite (media_values_final_newline (lit "text/plain=http://example.org/a")).
  - reflexivity.
  - discriminate.
  - intros c Hc. vm_compute in Hc. injection Hc as <-. reflexivity.
Defined.

(** ** The methods, further *)

Section ClientFurther.

Variable World : Type.
Variable send : World -> Request -> Response * World.
Variable py_str : pyval -> str.

Arguments lit : simpl never.

Ltac run_call :=
  unfold call, doi_get, doi_post, metadata_get, metadata_post,
    metadata_delete, media_get, media_post, _request_factory, bind, perform,
    get_self, ret, raise, lift;
  cbn [result final wire self world app].

Ltac split_outcomes :=
  repeat (cbn [result final wire self world app];
          match goal with
          | |- context [if ?b then _ else _] => destruct b
          | |- context [match ?x with Return _ => _ | Raise _ => _ end] =>
              destruct x
          end).

(** X3.  Every operation but [draft_doi] has exactly one exchange with the
    transport, on the success path as on every failure path: it sends one
    request to the world it found and leaves the world the transport gave
    back. *)
Theorem call_sends_once (op : Op) (st : State World) :
  is_draft op = false ->
  exists rq,
    wire (call send py_str op st) = [(rq, fst (send (world st) rq))] /\
    final (call send py_str op st) =
      {| self := self st; world := snd (send (world st) rq) |}.
Proof.
  destruct op; try discriminate; intros _; run_call;
    match goal with
    | |- context [send ?w ?q] => exists q; destruct (send w q) as [rs w']
    end;
    split_outcomes; split; reflexivity.
Qed.

(** X4.  Every request an operation sends goes through a request object that
    holds the client's base URL, username, password and timeout, with no
    default parameters. *)
Theorem requests_carry_configuration (op : Op) (st : State World)
    (rq : Request) (rs : Response) :
  In (rq, rs) (wire (call send py_str op st)) ->
  via rq = request_object (self st).
Proof.
  destruct op;
    try (cbn [call]; rewrite draft_doi_run; intros []);
    run_call;
    match goal with
    | |- context [send ?w ?q] => destruct (send w q) as [rs' w']
    end;
    split_outcomes; intros [[= <- <-]|[]]; reflexivity.
Qed.

(** X5.  The three reading operations send GET, [metadata_delete] sends DELETE,
    the others POST; and only a POST carries a body. *)
Theorem request_method_by_operation (op : Op) (st : State World)
    (rq : Request) (rs : Response) :
  In (rq, rs) (wire (call send py_str op st)) ->
  method rq = http_method op /\
  (body rq = None <-> method rq <> POST).
Proof.
  destruct op;
    try (cbn [call]; rewrite draft_doi_run; intros []);
    run_call;
    match goal with
    | |- context [send ?w ?q] => destruct (send w q) as [rs' w']
    end;
    split_outcomes; intros [[= <- <-]|[]]; cbn;
    (split; [reflexivity|]); split; congruence.
Qed.

(** X6.  [doi_post], [metadata_get], [metadata_post], [metadata_delete] and
    [media_post] return the body of a success response as it is. *)
Theorem success_returns_body (op : Op) (st : State World)
    (rq : Request) (rs : Response) :
  returns_raw_body op = true ->
  In (rq, rs) (wire (call send py_str op st)) ->
  code rs = success_code op ->
  result (call send py_str op st) = Return (data rs).
Proof.
  destruct op; try discriminate; intros _; cbn [success_code]; run_call;
    match goal with
    | |- context [send ?w ?q] => destruct (send w q) as [rs' w']
    end;
    match goal with
    | |- context [(code ?r =? ?n)%Z] => destruct (Z.eqb_spec (code r) n)
    end; cbn; intros [[= <- <-]|[]] Hcode; congruence.
Qed.

(** *** [doi_get] *)

(** X7.  What [doi_get] makes of a 200 response whose body is a dict: the body
    must have ["attributes"], that must be a dict, and it must have ["url"];
    a missing key is a [KeyError] naming it. *)
Theorem doi_get_dict_body (st : State World) (doi : str) (rq : Request)
    (rs : Response) (items : list (str * pyval)) :
  In (rq, rs) (wire (doi_get send doi st)) ->
  code rs = 200%Z ->
  data rs = PyDict items ->
  result (doi_get send doi st) =
    match dict_get (lit "attributes") items with
    | None => Raise (KeyError (lit "attributes"))
    | Some (PyDict attributes) =>
        match dict_get (lit "url") attributes with
        | Some location => Return location
        | None => Raise (KeyError (lit "url"))
        end
    | Some _ => Raise TypeError
    end.
Proof.
  intros Hin Hcode Hdata.
  destruct (@doi_get_on_200 World send st doi rq rs Hin Hcode) as [-> _].
  rewrite Hdata. cbn [subscript].
  destruct (dict_get (lit "attributes") items) as [a|]; [|reflexivity].
  cbn [rbind]. destruct a; reflexivity.
Qed.

(** *** [media_get] *)

Lemma media_get_on_200 (st : State World) (doi : str) (rq : Request)
    (rs : Response) :
  In (rq, rs) (wire (media_get send doi st)) ->
  code rs = 200%Z ->
  result (media_get send doi st) = media_values (data rs).
Proof.
  run_call.
  match goal with
  | |- context [send ?w ?q] => destruct (send w q) as [rs' w']
  end.
  destruct (Z.eqb_spec (code rs') 200); cbn;
    intros [[= <- <-]|[]] Hcode; [reflexivity | congruence].
Qed.

(** X8.  Whatever [media_get] returns is a dict whose keys hold no ['='] and
    whose keys and values hold no line boundary. *)
Theorem media_get_returns_mapping (st : State World) (doi : str)
    (values : list (str * str)) :
  result (media_get send doi st) = Return values ->
  NoDup (keys values) /\ forallb wire_safe values = true.
Proof.
  run_call.
  match goal with
  | |- context [send ?w ?q] => destruct (send w q) as [rs' w']
  end.
  destruct (code rs' =? 200)%Z; cbn; [|discriminate].
  apply media_values_wire_safe.
Qed.

(** X10.  An empty line in the listing makes [media_get] fail: a 200 body with two
    ['\n'] in a row raises [ValueError]. *)
Theorem media_get_blank_line (st : State World) (doi : str) (rq : Request)
    (rs : Response) (a b : str) :
  In (rq, rs) (wire (media_get send doi st)) ->
  code rs = 200%Z ->
  data rs = PyStr (a ++ LF :: LF :: b) ->
  result (media_get send doi st) = Raise ValueError.
Proof.
  intros Hin Hcode Hdata. rewrite (media_get_on_200 _ _ _ _ Hin Hcode), Hdata.
  unfold media_values. cbn [call_splitlines rbind].
  apply media_loop_malformed. apply existsb_exists. exists []. split.
  - apply (splitlines_from_blank b (List.length a) a []). apply le_n.
  - reflexivity.
Qed.

(** X12.  A 200 response whose body was decoded to something other than a string
    ([None], a boolean, a number, a list or a dict) makes [media_get] raise
    [AttributeError]: none of them has [splitlines]. *)
Theorem media_get_body_not_text (st : State World) (doi : str)
    (rq : Request) (rs : Response) :
  In (rq, rs) (wire (media_get send doi st)) ->
  code rs = 200%Z ->
  match data rs with
  | PyNone | PyBool _ | PyInt _ | PyList _ | PyDict _ => True
  | PyStr _ | PyOpaque _ => False
  end ->
  result (media_get send doi st) = Raise (AttributeError (lit "splitlines")).
Proof.
  intros Hin Hcode Hdata. rewrite (media_get_on_200 _ _ _ _ Hin Hcode).
  unfold media_values. destruct (data rs); try reflexivity; contradiction.
Qed.

(** *** [doi_post] *)

(** X16.  When neither argument holds a line boundary, the body that [doi_post]
    sends reads back, line by line and cut at the first ['='], as the two
    entries [doi] and [url] with the arguments as given. *)
Theorem doi_post_body_read_back (st : State World) (new_doi location : str)
    (rq : Request) (rs : Response) :
  no_linebreak new_doi = true ->
  no_linebreak location = true ->
  In (rq, rs) (wire (doi_post send new_doi location st)) ->
  exists b,
    body rq = Some b /\
    media_values (PyStr b) =
      Return [(lit "doi", new_doi); (lit "url", location)].
Proof.
  intros Hd Hl. run_call.
  match goal with
  | |- context [send ?w ?q] => destruct (send w q) as [rs' w']
  end.
  split_outcomes; intros [[= <- <-]|[]]; cbn [body];
    eexists; (split; [reflexivity|]);
    change (media_values
              (PyStr (media_body [(lit "doi", new_doi); (lit "url", location)]))
            = Return [(lit "doi", new_doi); (lit "url", location)]);
    unfold media_values; cbn [call_splitlines rbind];
    apply media_body_read_back;
    try (constructor; [|constructor; [|constructor]]; cbn;
         [intros [H|[]]; discriminate H | intros []]);
    unfold wire_safe; cbn [forallb fst snd]; rewrite Hd, Hl; reflexivity.
Qed.

End ClientFurther.

(** ** Against a service that stores what it is sent *)

(** X15.  Posting a media mapping and then fetching the media of the same DOI
    gives the mapping back, when the service answers the fetch with the body
    it was last sent for that path. *)
Theorem media_post_then_media_get (c : DataCiteRESTClient) (w : Store)
    (doi : str) (media : list (str * str)) :
  NoDup (keys media) ->
  forallb wire_safe media = true ->
  result (media_post store_service doi media {| self := c; world := w |})
    = Return (PyStr (lit "OK")) /\
  result (media_get store_service doi
            (final (media_post store_service doi media
                      {| self := c; world := w |})))
    = Return media.
Proof.
  intros Hnd Hsafe.
  unfold media_post, media_get, _request_factory, bind, perform, get_self,
    ret, raise, lift, store_service.
  cbn [method body url result final wire self world code data].
  change (200 =? 200)%Z with true. cbn [result final wire self world].
  split; [reflexivity|].
  rewrite dict_get_set, str_eqb_refl.
  cbn [method body url result final wire self world code data].
  change (200 =? 200)%Z with true. cbn [result final wire self world].
  unfold media_values. cbn [call_splitlines rbind].
  now apply media_body_read_back.
Qed.

Lemma media_post_then_media_get_example :
  result (media_get store_service (lit "10.1234/abc")
            (final (media_post store_service (lit "10.1234/abc") example_media
                      {| self := example_client; world := [] |})))
    = Return example_media.
Proof.
  apply (media_post_then_media_get example_client [] (lit "10.1234/abc")
           example_media).
  - unfold example_media, keys. cbn [map fst].
    constructor; [|constructor; [|constructor]]; cbn.
    + intros [H|[]]. discriminate H.
    + intros [].
  - reflexivity.
Defined.

(** ** Scenarios, further *)

Lemma call_sends_once_example :
  exists rq,
    wire (call scripted shown (DoiGet (lit "10.1234/abc"))
            (facing example_client [{| code := 200; data := resolve_body |}]))
      = [(rq, {| code := 200; data := resolve_body |})] /\
    final (call scripted shown (DoiGet (lit "10.1234/abc"))
             (facing example_client [{| code := 200; data := resolve_body |}]))
      = facing example_client [].
Proof.
  destruct (call_sends_once Script scripted shown (DoiGet (lit "10.1234/abc"))
              (facing example_client [{| code := 200; data := resolve_body |}])
              eq_refl) as (rq & Hwire & Hfinal).
  exists rq. split; [exact Hwire | exact Hfinal].
Defined.

Lemma requests_carry_configuration_example :
  exists rq rs,
    In (rq, rs)
       (wire (call scripted shown (MetadataDelete (lit "10.1234/abc"))
                (facing example_client
                   [{| code := 200; data := PyStr (lit "OK") |}]))) /\
    req_username (via rq) = Some (lit "user") /\
    req_password (via rq) = Some (lit "pw") /\
    base_url (via rq) = lit "https://api.datacite.org/".
Proof.
  eexists. eexists. split; [left; reflexivity|].
  rewrite (requests_carry_configuration Script scripted shown
             (MetadataDelete (lit "10.1234/abc"))
             (facing example_client
                [{| code := 200; data := PyStr (lit "OK") |}])
             _ _ (or_introl eq_refl)).
  split; [reflexivity|]. split; reflexivity.
Defined.

Lemma request_method_example :
  exists rq rs,
    In (rq, rs)
       (wire (call scripted shown (MetadataDelete (lit "10.1234/abc"))
                (facing example_client
                   [{| code := 200; data := PyStr (lit "OK") |}]))) /\
    method rq = DELETE /\ body rq = None.
Proof.
  eexists. eexists. split; [left; reflexivity|].
  destruct (request_method_by_operation Script scripted shown
              (MetadataDelete (lit "10.1234/abc"))
              (facing example_client
                 [{| code := 200; data := PyStr (lit "OK") |}])
              _ _ (or_introl eq_refl)) as [Hm Hb].
  split; [exact Hm|]. apply Hb. rewrite Hm. discriminate.
Defined.

Lemma success_returns_body_example :
  result (call scripted shown (MetadataGet (lit "10.1234/abc"))
            (facing example_client
               [{| code := 200; data := PyStr (lit "<resource/>") |}]))
    = Return (PyStr (lit "<resource/>")).
Proof.
  eapply (success_returns_body Script scripted shown
            (MetadataGet (lit "10.1234/abc"))
            (facing example_client
               [{| code := 200; data := PyStr (lit "<resource/>") |}])
            _ {| code := 200; data := PyStr (lit "<resource/>") |}).
  - reflexivity.
  - left. reflexivity.
  - reflexivity.
Defined.

Lemma doi_get_dict_body_example :
  result (doi_get scripted (lit "10.1234/abc")
            (facing example_client
               [{| code := 200;
                   data := PyDict [(lit "attributes", PyDict [])] |}]))
    = Raise (KeyError (lit "url")).
Proof.
  erewrite (doi_get_dict_body Script scripted
              (facing example_client
                 [{| code := 200;
                     data := PyDict [(lit "attributes", PyDict [])] |}])
              (lit "10.1234/abc") _
              {| code := 200; data := PyDict [(lit "attributes", PyDict [])] |}
              [(lit "attributes", PyDict [])]).
  - reflexivity.
  - left. reflexivity.
  - reflexivity.
  - reflexivity.
Defined.

Lemma media_get_returns_mapping_example :
  NoDup (keys [(lit "a", lit "3"); (lit "b", lit "2")]) /\
  forallb wire_safe [(lit "a", lit "3"); (lit "b", lit "2")] = true.
Proof.
  apply (media_get_returns_mapping Script scripted
           (facing example_client
              [{| code := 200;
                  data := PyStr (lit "a=1" ++ [LF] ++ lit "b=2" ++ [CR; LF]
                                 ++ lit "a=3") |}])
           (lit "10.1234/abc")).
  reflexivity.
Defined.

Lemma media_get_blank_line_example :
  result (media_get scripted (lit "10.1234/abc")
            (facing example_client
               [{| code := 200;
                   data := PyStr (lit "a=1" ++ LF :: LF :: lit "b=2") |}]))
    = Raise ValueError.
Proof.
  eapply (media_get_blank_line Script scripted
            (facing example_client
               [{| code := 200;
                   data := PyStr (lit "a=1" ++ LF :: LF :: lit "b=2") |}])
            (lit "10.1234/abc") _ _ (lit "a=1") (lit "b=2")).
  - left. reflexivity.
  - reflexivity.
  - reflexivity.
Defined.

Lemma media_get_body_not_text_example :
  result (media_get scripted (lit "10.1234/abc")
            (facing example_client [{| code := 200; data := resolve_body |}]))
    = Raise (AttributeError (lit "splitlines")).
Proof.
  eapply (media_get_body_not_text Script scripted
            (facing example_client [{| code := 200; data := resolve_body |}])
            (lit "10.1234/abc")).
  - left. reflexivity.
  - reflexivity.
  - exact I.
Defined.

Lemma doi_post_body_read_back_example :
  exists b,
    body {| via := request_object example_client; method := POST;
            url := lit "doi";
            body := Some (lit "doi=10.1234/abc" ++ CRLF
                          ++ lit "url=http://example.org/?a=1");
            headers := Some [(lit "Content-Type",
                              lit "text/plain;charset=UTF-8")] |} = Some b /\
    media_values (PyStr b) =
      Return [(lit "doi", lit "10.1234/abc");
              (lit "url", lit "http://example.org/?a=1")].
Proof.
  eapply (doi_post_body_read_back Script scripted
            (facing example_client []) (lit "10.1234/abc")
            (lit "http://example.org/?a=1")).
  - reflexivity.
  - reflexivity.
  - left. reflexivity.
Defined.
